(** * Email classification pipeline: a shallow embedding of
    [email_classifier_template.py] and the properties of its orchestrator.

    Strings are [string]s whose characters stand for the code points below
    256 of a Python [str]; every literal of the program is plain ASCII.  An
    email is the dict of the sample dataset, with its five string-valued
    keys, kept as a record.  The language-model client is a parameter: a
    state transformer that answers a chat-completion request with a
    completion or by raising an instance of [Exception].  Everything the
    program does to the outside (requests to the provider, log lines, calls
    of the mock services, printing) is recorded as a list of events. *)

From Stdlib Require Import String Ascii List Bool NArith Lia.
Import ListNotations.
Open Scope string_scope.

(** ** Python string methods used by the program *)

Module PyStr.

Definition code (c : ascii) : N := N_of_ascii c.

(** [str.isspace] on one character, for code points below 256:
    U+0009..U+000D, U+001C..U+001F, U+0020, U+0085 and U+00A0. *)
Definition isspace (c : ascii) : bool :=
  let n := code c in
  ((9 <=? n) && (n <=? 13) || (28 <=? n) && (n <=? 32)
   || (n =? 133) || (n =? 160))%N.

(** [str.lower] on one character, for code points below 256: A..Z and
    U+00C0..U+00DE except the multiplication sign U+00D7 move up by 32. *)
Definition lower_char (c : ascii) : ascii :=
  let n := code c in
  if ((65 <=? n) && (n <=? 90)
      || (192 <=? n) && (n <=? 222) && negb (n =? 215))%N
  then ascii_of_N (n + 32) else c.

Fixpoint lower (s : string) : string :=
  match s with
  | EmptyString => EmptyString
  | String c s' => String (lower_char c) (lower s')
  end.

Fixpoint lstrip (s : string) : string :=
  match s with
  | EmptyString => EmptyString
  | String c s' => if isspace c then lstrip s' else s
  end.

Fixpoint rstrip (s : string) : string :=
  match s with
  | EmptyString => EmptyString
  | String c s' =>
      match rstrip s' with
      | EmptyString => if isspace c then EmptyString else String c EmptyString
      | t => String c t
      end
  end.

(** [s.strip()] with no argument. *)
Definition strip (s : string) : string := rstrip (lstrip s).

(** [sep.join(xs)]. *)
Fixpoint join (sep : string) (xs : list string) : string :=
  match xs with
  | [] => EmptyString
  | [x] => x
  | x :: rest => x ++ sep ++ join sep rest
  end.

(** [x in xs] for a collection of strings. *)
Definition contains (xs : list string) (x : string) : bool :=
  existsb (String.eqb x) xs.

Definition nl : string := String (ascii_of_N 10) EmptyString.

End PyStr.

(** ** Values, exceptions and the outside world *)

(** The values a field of a result row takes: [None], a boolean, a string. *)
Inductive pyvalue : Type :=
| VNone
| VBool (b : bool)
| VStr (s : string).

Definition of_optional (o : option string) : pyvalue :=
match o with
| None => VNone
| Some s => VStr s
end.

(** An instance of a subclass of [Exception]: its class and [str(e)]. *)
Record exn : Type := Exn { exn_class : string; exn_str : string }.

Definition AttributeError_strip : exn :=
Exn "AttributeError" "'NoneType' object has no attribute 'strip'".

Definition IndexError_list : exn :=
Exn "IndexError" "list index out of range".

(** A role-tagged message of a chat-completion request. *)
Record message : Type := Message { role : string; content : string }.

(** What the provider hands back: [choices[i].message.content] for each
  choice, where a content may be [None]. *)
Record completion : Type := Completion { choices : list (option string) }.

Inductive reply : Type :=
| Returns (c : completion)
| Raises (e : exn).

(** The mock downstream services of the module. *)
Inductive service : Type :=
| SendComplaintResponse
| SendStandardResponse
| CreateUrgentTicket
| CreateSupportTicket
| LogCustomerFeedback.

Record ProcessingResult : Type := Result {
email_id : string;
success : bool;
classification : option string;
response_sent : pyvalue
}.

Inductive event : Type :=
| ChatCompletion (model : string) (messages : list message)
| LogError (msg : string)
| LogInfo (msg : string)
| Invoke (svc : service) (args : list pyvalue)
| Print (text : string)
| PrintFrame (columns : list string) (rows : list ProcessingResult).

Record Email : Type := mkEmail {
id : string;
from : string;
subject : string;
body : string;
timestamp : string
}.

(** The sample email dataset of the module. *)
Definition sample_emails : list Email :=
[ {| id := "001";
     from := "angry.customer@example.com";
     subject := "Broken product received";
     body := "I received my order #12345 yesterday but it arrived completely damaged. This is unacceptable and I demand a refund immediately. This is the worst customer service I've experienced.";
     timestamp := "2024-03-15T10:30:00Z" |};
  {| id := "002";
     from := "curious.shopper@example.com";
     subject := "Question about product specifications";
     body := "Hi, I'm interested in buying your premium package but I couldn't find information about whether it's compatible with Mac OS. Could you please clarify this? Thanks!";
     timestamp := "2024-03-15T11:45:00Z" |};
  {| id := "003";
     from := "happy.user@example.com";
     subject := "Amazing customer support";
     body := "I just wanted to say thank you for the excellent support I received from Sarah on your team. She went above and beyond to help resolve my issue. Keep up the great work!";
     timestamp := "2024-03-15T13:15:00Z" |};
  {| id := "004";
     from := "tech.user@example.com";
     subject := "Need help with installation";
     body := "I've been trying to install the software for the past hour but keep getting error code 5123. I've already tried restarting my computer and clearing the cache. Please help!";
     timestamp := "2024-03-15T14:20:00Z" |};
  {| id := "005";
     from := "business.client@example.com";
     subject := "Partnership opportunity";
     body := "Our company is interested in exploring potential partnership opportunities with your organization. Would it be possible to schedule a call next week to discuss this further?";
     timestamp := "2024-03-15T15:00:00Z" |} ].

(** ** Computations: provider state, emitted events, exceptions *)

Inductive outcome (A : Type) : Type :=
| Ok (a : A)
| Raised (e : exn).

Arguments Ok {A} a.
Arguments Raised {A} e.

(** A Python set of strings: its elements, and the order in which this
  interpreter process iterates over them (any order; it is fixed for the
  lifetime of the process). *)
Record pyset : Type := PySet { elements : list string; iteration : list string }.

Section Program.

(** The internal state of the client standing for [OpenAI(...)]. *)
Context {PS : Type}.

(** [client.chat.completions.create(model=..., messages=...)]. *)
Definition Client : Type := string -> list message -> PS -> reply * PS.

Definition M (A : Type) : Type := PS -> outcome A * list event * PS.

Definition ret {A} (a : A) : M A := fun s => (Ok a, [], s).

Definition raise {A} (e : exn) : M A := fun s => (Raised e, [], s).

Definition bind {A B} (m : M A) (k : A -> M B) : M B :=
  fun s =>
    match m s with
    | (Ok a, evs, s') =>
        let '(r, evs', s'') := k a s' in (r, (evs ++ evs')%list, s'')
    | (Raised e, evs, s') => (Raised e, evs, s')
    end.

(** [try: m  except Exception as e: h e]. *)
Definition try_except {A} (m : M A) (h : exn -> M A) : M A :=
  fun s =>
    match m s with
    | (Ok a, evs, s') => (Ok a, evs, s')
    | (Raised e, evs, s') =>
        let '(r, evs', s'') := h e s' in (r, (evs ++ evs')%list, s'')
    end.

Definition emit (ev : event) : M unit := fun s => (Ok tt, [ev], s).

Notation "x <- m ;; k" := (bind m (fun x => k))
  (at level 61, m at next level, right associativity).
Notation "m ;; k" := (bind m (fun _ => k))
  (at level 61, right associativity).

Definition logger_error (msg : string) : M unit := emit (LogError msg).
Definition logger_info (msg : string) : M unit := emit (LogInfo msg).
Definition print (text : string) : M unit := emit (Print text).

Definition chat_completions_create
    (client : Client) (model : string) (messages : list message)
  : M completion :=
  fun s =>
    let (r, s') := client model messages s in
    (match r with Returns c => Ok c | Raises e => Raised e end,
     [ChatCompletion model messages], s').

(** [xs[0]]. *)
Definition first_item {A} (xs : list A) : M A :=
  match xs with
  | [] => raise IndexError_list
  | x :: _ => ret x
  end.

(** The receiver of [.strip()]: a [None] content has no such attribute. *)
Definition str_receiver (o : option string) : M string :=
  match o with
  | None => raise AttributeError_strip
  | Some s => ret s
  end.

(** *** EmailProcessor *)

Record EmailProcessor : Type := mkEmailProcessor {
  client : Client;
  valid_categories : pyset;
  model : string
}.

Definition EmailProcessor_init (c : Client) (order : list string)
  : EmailProcessor :=
  {| client := c;
     valid_categories :=
       {| elements :=
            ["complaint"; "inquiry"; "feedback"; "support_request"; "other"];
          iteration := order |};
     model := "gpt-4o" |}.

Definition user_message (prompt : string) : list message :=
  [ {| role := "user"; content := prompt |} ].

Definition classify_prompt (self : EmailProcessor) (email : Email) : string :=
  "Please classify the following email as one of the following categories: "
  ++ PyStr.join ", " (iteration (valid_categories self))
  ++ PyStr.nl ++ "Subject: " ++ subject email
  ++ PyStr.nl ++ "Body: " ++ body email
  ++ "Return only the category or None if classification fails (JUST THE CATEGORY, NO QUOTES)".

Definition classify_email (self : EmailProcessor) (email : Email)
  : M (option string) :=
  let prompt := classify_prompt self email in
  try_except
    (completion <- chat_completions_create (client self) (model self)
                     (user_message prompt) ;;
     choice <- first_item (choices completion) ;;
     text <- str_receiver choice ;;
     let category_as_a_text := PyStr.lower (PyStr.strip text) in
     ret (if PyStr.contains (elements (valid_categories self))
               category_as_a_text
          then Some category_as_a_text else None))
    (fun e =>
       logger_error ("Error with the LLM provider: " ++ exn_str e) ;;
       ret None).

Definition response_prompt (email : Email) (classification : string)
  : string :=
  "Generate an automated response based on email classification"
  ++ "The category is " ++ classification
  ++ PyStr.nl ++ "Subject: " ++ subject email
  ++ PyStr.nl ++ "Body: " ++ body email
  ++ "Return only the message (JUST THE MESSAGE, NO EXTRA TEXT)".

Definition generate_response
    (self : EmailProcessor) (email : Email) (classification : string)
  : M (option string) :=
  let prompt := response_prompt email classification in
  try_except
    (completion <- chat_completions_create (client self) (model self)
                     (user_message prompt) ;;
     choice <- first_item (choices completion) ;;
     ret choice)
    (fun e =>
       logger_error ("Error with the LLM provider: " ++ exn_str e) ;;
       ret None).

(** *** Mock service functions.  Each records its own invocation with the
    arguments it was given, then logs one informational line. *)

Definition send_complaint_response (email_id : string) (response : option string)
  : M unit :=
  emit (Invoke SendComplaintResponse [VStr email_id; of_optional response]) ;;
  logger_info ("Sending complaint response for email " ++ email_id).

Definition send_standard_response (email_id : string) (response : option string)
  : M unit :=
  emit (Invoke SendStandardResponse [VStr email_id; of_optional response]) ;;
  logger_info ("Sending standard response for email " ++ email_id).

Definition create_urgent_ticket
    (email_id : string) (category : string) (context : option string)
  : M unit :=
  emit (Invoke CreateUrgentTicket
          [VStr email_id; VStr category; of_optional context]) ;;
  logger_info ("Creating urgent ticket for email " ++ email_id).

Definition create_support_ticket (email_id : string) (context : option string)
  : M unit :=
  emit (Invoke CreateSupportTicket [VStr email_id; of_optional context]) ;;
  logger_info ("Creating support ticket for email " ++ email_id).

Definition log_customer_feedback (email_id : string) (feedback : option string)
  : M unit :=
  emit (Invoke LogCustomerFeedback [VStr email_id; of_optional feedback]) ;;
  logger_info ("Logging feedback for email " ++ email_id).

(** *** EmailAutomationSystem *)

Definition handler : Type := Email -> M (option string).

Definition _handle_complaint (processor : EmailProcessor) : handler :=
  fun email =>
    response <- generate_response processor email "complaint" ;;
    send_complaint_response (id email) response ;;
    ret response.

Definition _handle_inquiry (processor : EmailProcessor) : handler :=
  fun email =>
    response <- generate_response processor email "inquiry" ;;
    send_standard_response (id email) response ;;
    ret response.

Definition _handle_feedback (processor : EmailProcessor) : handler :=
  fun email =>
    response <- generate_response processor email "feedback" ;;
    log_customer_feedback (id email) response ;;
    ret response.

Definition _handle_support_request (processor : EmailProcessor) : handler :=
  fun email =>
    response <- generate_response processor email "support_request" ;;
    create_support_ticket (id email) response ;;
    ret response.

Definition _handle_other (processor : EmailProcessor) : handler :=
  fun email =>
    response <- generate_response processor email "other" ;;
    send_standard_response (id email) response ;;
    ret response.

(** [d.get(key, default)] on a dict kept as its items in insertion order. *)
Fixpoint dict_get {V} (d : list (string * V)) (key : string) (default : V) : V :=
  match d with
  | [] => default
  | (k, v) :: rest => if String.eqb key k then v else dict_get rest key default
  end.

(** The handlers in the dict are methods bound to the system; all they
    read from it is its processor. *)
Record EmailAutomationSystem : Type := mkEmailAutomationSystem {
  processor : EmailProcessor;
  response_handlers : list (string * handler)
}.

Definition EmailAutomationSystem_init (p : EmailProcessor)
  : EmailAutomationSystem :=
  {| processor := p;
     response_handlers :=
       [ ("complaint", _handle_complaint p);
         ("inquiry", _handle_inquiry p);
         ("feedback", _handle_feedback p);
         ("support_request", _handle_support_request p);
         ("other", _handle_other p) ] |}.

(** The handler the orchestrator finds for a key, in a system built by
    [EmailAutomationSystem_init]. *)
Definition lookup_handler (p : EmailProcessor) (key : string) : handler :=
  dict_get (response_handlers (EmailAutomationSystem_init p)) key
           (_handle_other p).

(** Truth value of an [Optional[str]]: [None] and the empty string are
    false. *)
Definition truthy (o : option string) : bool :=
  match o with
  | None => false
  | Some EmptyString => false
  | Some _ => true
  end.

Definition process_email (self : EmailAutomationSystem) (email : Email)
  : M ProcessingResult :=
  classification <- classify_email (processor self) email ;;
  if negb (truthy classification) then
    ret {| email_id := id email; success := false;
           classification := None; response_sent := VBool false |}
  else
    let handler :=
      dict_get (response_handlers self)
               (match classification with Some c => c | None => EmptyString end)
               (_handle_other (processor self)) in
    response <- handler email ;;
    ret {| email_id := id email; success := true;
           classification := classification;
           response_sent := of_optional response |}.

(** *** Demonstration driver *)

(** The [for email in emails] loop of [run_demonstration], appending to
    [results]. *)
Fixpoint process_each
    (automation_system : EmailAutomationSystem) (emails : list Email)
    (results : list ProcessingResult)
  : M (list ProcessingResult) :=
  match emails with
  | [] => ret results
  | email :: rest =>
      logger_info (PyStr.nl ++ "Processing email " ++ id email ++ "...") ;;
      result <- process_email automation_system email ;;
      process_each automation_system rest (results ++ [result])%list
  end.

(** The orchestrator run over a list of emails: what [run_demonstration]
    does with [sample_emails].  The data frame it returns is the list of
    result rows; [c] and [order] are the client and the iteration order
    of the category set that [EmailProcessor()] gets from its
    environment. *)
Definition run_on (c : Client) (order : list string) (emails : list Email)
  : M (list ProcessingResult) :=
  let processor := EmailProcessor_init c order in
  let automation_system := EmailAutomationSystem_init processor in
  results <- process_each automation_system emails [] ;;
  print (PyStr.nl ++ "Processing Summary:") ;;
  emit (PrintFrame ["email_id"; "success"; "classification"; "response_sent"]
          results) ;;
  ret results.

Definition run_demonstration (c : Client) (order : list string)
  : M (list ProcessingResult) :=
  run_on c order sample_emails.

End Program.

(** ** Stub clients, as a test would put in place of the provider *)

Module Stub.

(** Is the request the classification prompt? *)
Definition is_classification (messages : list message) : bool :=
  match messages with
  | m :: _ => String.prefix "Please classify" (content m)
  | [] => false
  end.

(** A stateless stub: one fixed answer to classification requests and one
    to response requests. *)
Definition fixed (on_classify on_respond : reply) : @Client unit :=
  fun _ messages s =>
    (if is_classification messages then on_classify else on_respond, s).

(** A scripted stub: the answers are handed out in order, whatever the
    request; when the script is used up the call raises. *)
Definition scripted : @Client (list reply) :=
  fun _ _ script =>
    match script with
    | r :: rest => (r, rest)
    | [] => (Raises (Exn "StopIteration" EmptyString), [])
    end.

(** A stub that counts the requests it has served and answers like
    [fixed]. *)
Definition counting (on_classify on_respond : reply) : @Client nat :=
  fun _ messages n =>
    (if is_classification messages then on_classify else on_respond, S n).

Definition text (s : string) : reply := Returns (Completion [Some s]).

Definition failing : reply := Raises (Exn "APIConnectionError" "Connection error.").

(** The source order of the set literal, taken as its iteration order. *)
Definition order : list string :=
  ["complaint"; "inquiry"; "feedback"; "support_request"; "other"].

Definition system {PS} (c : @Client PS) : EmailAutomationSystem :=
  EmailAutomationSystem_init (EmailProcessor_init c order).

(** Filler for an index past the end of the dataset. *)
Definition no_email : Email :=
  mkEmail EmptyString EmptyString EmptyString EmptyString EmptyString.

Definition email1 : Email := nth 0 sample_emails no_email.
Definition email2 : Email := nth 1 sample_emails no_email.
Definition email3 : Email := nth 2 sample_emails no_email.

End Stub.

(** ** Vocabulary of the properties *)

(** The closed enumeration of categories and the label each goes by. *)
Inductive Category : Type :=
| Complaint
| Inquiry
| Feedback
| SupportRequest
| Other.

Definition label (cat : Category) : string :=
match cat with
| Complaint => "complaint"
| Inquiry => "inquiry"
| Feedback => "feedback"
| SupportRequest => "support_request"
| Other => "other"
end.

(** The dispatch table as the specification gives it: category to
  downstream mock action. *)
Definition table_action (cat : Category) : service :=
match cat with
| Complaint => SendComplaintResponse
| Inquiry => SendStandardResponse
| Feedback => LogCustomerFeedback
| SupportRequest => CreateSupportTicket
| Other => SendStandardResponse
end.

Definition is_invoke (ev : event) : bool :=
match ev with Invoke _ _ => true | _ => false end.

Definition is_request (ev : event) : bool :=
match ev with ChatCompletion _ _ => true | _ => false end.

(** The calls of mock services among some events, in order. *)
Definition invocations (evs : list event) : list event := filter is_invoke evs.

(** The requests sent to the provider among some events, in order. *)
Definition requests (evs : list event) : list event := filter is_request evs.

Definition calls_urgent_ticket (ev : event) : bool :=
match ev with Invoke CreateUrgentTicket _ => true | _ => false end.

(** The line an [except] branch logs for [e]. *)
Definition error_line (e : exn) : event :=
LogError ("Error with the LLM provider: " ++ exn_str e).

(** The category set as [EmailProcessor.__init__] writes it. *)
Definition category_set : list string :=
["complaint"; "inquiry"; "feedback"; "support_request"; "other"].

(** Trimmed and lowercased, as [classify_email] normalizes a returned text. *)
Definition normalized (t : string) : string := PyStr.lower (PyStr.strip t).

(** The invariant of result rows as the data model words it: [success] iff
  a classification is present, and [response_sent] present only with
  [success]. *)
Definition result_invariant (r : ProcessingResult) : Prop :=
(success r = true <-> classification r <> None)
/\ (response_sent r <> VNone -> success r = true).

(** The same with the failure row as the program builds it: a string in
  [response_sent] only with [success], and the boolean [False] there
  without. *)
Definition result_invariant_False (r : ProcessingResult) : Prop :=
(success r = true <-> classification r <> None)
/\ (forall t, response_sent r = VStr t -> success r = true)
/\ (success r = false -> response_sent r = VBool false).

(** What [classify_email] makes of the provider's reply: its return value
  and the lines it logs. *)
Definition read_category (r : reply) : option string * list event :=
match r with
| Raises e => (None, [error_line e])
| Returns (Completion []) => (None, [error_line IndexError_list])
| Returns (Completion (None :: _)) => (None, [error_line AttributeError_strip])
| Returns (Completion (Some t :: _)) =>
    (if PyStr.contains category_set (normalized t)
     then Some (normalized t) else None, [])
end.

(** What [generate_response] makes of the provider's reply. *)
Definition read_response (r : reply) : option string * list event :=
match r with
| Raises e => (None, [error_line e])
| Returns (Completion []) => (None, [error_line IndexError_list])
| Returns (Completion (o :: _)) => (o, [])
end.

(** The informational line of each mock service. *)
Definition service_line (svc : service) (email_id : string) : string :=
match svc with
| SendComplaintResponse => "Sending complaint response for email " ++ email_id
| SendStandardResponse => "Sending standard response for email " ++ email_id
| CreateUrgentTicket => "Creating urgent ticket for email " ++ email_id
| CreateSupportTicket => "Creating support ticket for email " ++ email_id
| LogCustomerFeedback => "Logging feedback for email " ++ email_id
end.

(** A computation that, from any provider state, emits no call of the
    urgent-ticket service. *)
Definition urgent_free {PS A} (m : @M PS A) : Prop :=
  forall s, existsb calls_urgent_ticket (snd (fst (m s))) = false.

(** Two provider states answer alike under [R]: any request gets the same
    reply from both, and the states they move to answer alike again. *)
Definition answers_alike {PS} (c : @Client PS) (R : PS -> PS -> Prop) : Prop :=
  forall model messages s1 s2,
    R s1 s2 ->
    fst (c model messages s1) = fst (c model messages s2)
    /\ R (snd (c model messages s1)) (snd (c model messages s2)).

(** A computation that does the same from provider states related by [R]:
    same outcome, same events, related states afterwards. *)
Definition respects {PS A} (R : PS -> PS -> Prop) (m : @M PS A) : Prop :=
  forall s1 s2,
    R s1 s2 ->
    fst (m s1) = fst (m s2) /\ R (snd (m s1)) (snd (m s2)).

(** The row [process_email] builds when the classification is absent. *)
Definition failure_row (email : Email) : ProcessingResult :=
  {| email_id := id email; success := false;
     classification := None; response_sent := VBool false |}.





(** ** The two provider-call wrappers *)

Section Wrappers.

Context {PS : Type}.
Implicit Types (self : @EmailProcessor PS) (email : Email) (s : PS).

Lemma classify_email_run self email s :
  elements (valid_categories self) = category_set ->
  classify_email self email s =
  let (r, s') :=
    client self (model self) (user_message (classify_prompt self email)) s in
  (Ok (fst (read_category r)),
   ChatCompletion (model self) (user_message (classify_prompt self email))
     :: snd (read_category r), s').
Proof.
  intros Hset.
  unfold classify_email, try_except, bind, chat_completions_create.
  destruct (client self _ _ s) as [[[[|[t|] rest]]|e] s']; try reflexivity.
  cbn -[PyStr.contains PyStr.lower PyStr.strip String.append].
  rewrite Hset. reflexivity.
Qed.

Lemma generate_response_run self email (cat : string) s :
  generate_response self email cat s =
  let (r, s') :=
    client self (model self) (user_message (response_prompt email cat)) s in
  (Ok (fst (read_response r)),
   ChatCompletion (model self) (user_message (response_prompt email cat))
     :: snd (read_response r), s').
Proof.
  unfold generate_response, try_except, bind, chat_completions_create.
  destruct (client self _ _ s) as [[[[|o rest]]|e] s']; reflexivity.
Qed.

End Wrappers.

(** ** The dispatcher *)

Section Dispatcher.

Context {PS : Type}.
Implicit Types (p : @EmailProcessor PS) (email : Email) (s : PS).

Lemma lookup_label p (cat : Category) :
  lookup_handler p (label cat) =
  match cat with
  | Complaint => _handle_complaint p
  | Inquiry => _handle_inquiry p
  | Feedback => _handle_feedback p
  | SupportRequest => _handle_support_request p
  | Other => _handle_other p
  end.
Proof. destruct cat; reflexivity. Qed.

(** One run of the handler of a category: one request to the provider, the
    error line if that failed, then the one mock action of the table with
    whatever the responder produced. *)
Lemma handler_run p (cat : Category) email s :
  lookup_handler p (label cat) email s =
  let (r, s') :=
    client p (model p) (user_message (response_prompt email (label cat))) s in
  (Ok (fst (read_response r)),
   (ChatCompletion (model p) (user_message (response_prompt email (label cat)))
      :: snd (read_response r)
      ++ [ Invoke (table_action cat)
             [VStr (id email); of_optional (fst (read_response r))];
           LogInfo (service_line (table_action cat) (id email)) ])%list,
   s').
Proof.
  rewrite lookup_label.
  destruct cat;
    unfold _handle_complaint, _handle_inquiry, _handle_feedback,
           _handle_support_request, _handle_other, bind;
    rewrite generate_response_run;
    cbn [label table_action];
    destruct (client p _ _ s) as [r s'];
    destruct (read_response r) as [o log]; cbn [fst snd];
    unfold send_complaint_response, send_standard_response,
           create_support_ticket, log_customer_feedback,
           logger_info, emit, ret, bind;
    cbn [app service_line]; rewrite ?app_nil_r; reflexivity.
Qed.

Lemma contains_category_set (x : string) :
  PyStr.contains category_set x = true -> exists cat, x = label cat.
Proof.
  unfold PyStr.contains, category_set. cbn [existsb].
  rewrite !orb_true_iff, !String.eqb_eq.
  intros [H|[H|[H|[H|[H|H]]]]]; try discriminate H.
  - now exists Complaint.
  - now exists Inquiry.
  - now exists Feedback.
  - now exists SupportRequest.
  - now exists Other.
Qed.

Lemma label_nonempty (cat : Category) : truthy (Some (label cat)) = true.
Proof. destruct cat; reflexivity. Qed.

Lemma invocations_app (evs evs' : list event) :
  invocations (evs ++ evs') = (invocations evs ++ invocations evs')%list.
Proof. apply filter_app. Qed.

Lemma requests_app (evs evs' : list event) :
  requests (evs ++ evs') = (requests evs ++ requests evs')%list.
Proof. apply filter_app. Qed.

Lemma read_response_quiet (r : reply) :
  invocations (snd (read_response r)) = [] /\ requests (snd (read_response r)) = [].
Proof. destruct r as [[[|o rest]]|e]; split; reflexivity. Qed.

Lemma read_category_quiet (r : reply) :
  invocations (snd (read_category r)) = [] /\ requests (snd (read_category r)) = [].
Proof. destruct r as [[[|[t|] rest]]|e]; split; reflexivity. Qed.

End Dispatcher.

(** ** The orchestrator *)

Section Orchestrator.

Context {PS : Type} (c : @Client PS) (order : list string).

Local Abbreviation p := (EmailProcessor_init c order).
Local Abbreviation sys := (EmailAutomationSystem_init p).
Local Abbreviation classify_call email :=
  (c "gpt-4o" (user_message (classify_prompt p email))).
Local Abbreviation classify_request email :=
  (ChatCompletion "gpt-4o" (user_message (classify_prompt p email))).
Local Abbreviation respond_call email cat :=
  (c "gpt-4o" (user_message (response_prompt email cat))).
Local Abbreviation respond_request email cat :=
  (ChatCompletion "gpt-4o" (user_message (response_prompt email cat))).

Lemma read_category_label (r : reply) (x : string) :
  fst (read_category r) = Some x -> exists cat, x = label cat.
Proof.
  destruct r as [[[|[t|] rest]]|e]; cbn [read_category fst]; try discriminate.
  destruct (PyStr.contains category_set (normalized t)) eqn:Hin; try discriminate.
  intros [= <-]. now apply contains_category_set.
Qed.

(** Classification came back absent: the failure row, and nothing after the
    classification call. *)
Lemma process_email_failed email s r1 s1 :
  classify_call email s = (r1, s1) ->
  fst (read_category r1) = None ->
  process_email sys email s =
  (Ok {| email_id := id email; success := false;
         classification := None; response_sent := VBool false |},
   classify_request email :: snd (read_category r1), s1).
Proof.
  intros Hcall Hnone.
  unfold process_email, bind. change (processor sys) with p.
  rewrite classify_email_run by reflexivity.
  change (client p) with c. change (model p) with "gpt-4o".
  rewrite Hcall, Hnone.
  cbn [truthy negb ret]. now rewrite app_nil_r.
Qed.

(** Classification came back with a category: its handler runs from the
    state the classification call left. *)
Lemma process_email_classified email s r1 s1 (cat : Category) :
  classify_call email s = (r1, s1) ->
  fst (read_category r1) = Some (label cat) ->
  process_email sys email s =
  let (r2, s2) := respond_call email (label cat) s1 in
  (Ok {| email_id := id email; success := true;
         classification := Some (label cat);
         response_sent := of_optional (fst (read_response r2)) |},
   (classify_request email :: snd (read_category r1)
      ++ respond_request email (label cat) :: snd (read_response r2)
      ++ [ Invoke (table_action cat)
             [VStr (id email); of_optional (fst (read_response r2))];
           LogInfo (service_line (table_action cat) (id email)) ])%list,
   s2).
Proof.
  intros Hcall Hsome.
  unfold process_email, bind. change (processor sys) with p.
  rewrite classify_email_run by reflexivity.
  change (client p) with c. change (model p) with "gpt-4o".
  rewrite Hcall, Hsome.
  rewrite label_nonempty. cbn [negb].
  change (dict_get (response_handlers sys) (label cat) (_handle_other p))
    with (lookup_handler p (label cat)).
  rewrite handler_run.
  change (client p) with c. change (model p) with "gpt-4o".
  destruct (respond_call email (label cat) s1) as [r2 s2].
  cbn [ret]. now rewrite app_nil_r.
Qed.

Lemma In_category_set (x : string) :
  In x category_set <-> PyStr.contains category_set x = true.
Proof.
  unfold PyStr.contains. rewrite existsb_exists. split.
  - intros Hin. exists x. split; [exact Hin | apply String.eqb_refl].
  - intros [y [Hin Heq]]. apply String.eqb_eq in Heq. now subst y.
Qed.

(** process_email never raises: it always returns a row. *)
Lemma process_email_returns email s :
  exists r evs s', process_email sys email s = (Ok r, evs, s').
Proof.
  destruct (classify_call email s) as [r1 s1] eqn:Hcall.
  destruct (fst (read_category r1)) as [x|] eqn:Hread.
  - destruct (read_category_label _ _ Hread) as [cat ->].
    rewrite (process_email_classified _ _ _ _ _ Hcall Hread).
    destruct (respond_call email (label cat) s1) as [r2 s2]. eauto.
  - rewrite (process_email_failed _ _ _ _ Hcall Hread). eauto.
Qed.

(** C1, as the program has it: when the classification call raises, or
    returns a text whose trimmed, lowercased form is not in the category set,
    process_email returns the row with the email's id, success False, no
    classification and response_sent the boolean False (not None); the only
    request sent to the provider is the classification request, no mock
    service is called, and the provider is left as the classification call
    left it, so no handler and no Responder call ran. *)
Theorem classification_failure_result email s r1 s1 :
  classify_call email s = (r1, s1) ->
  ((exists e, r1 = Raises e) \/
   (exists t rest, r1 = Returns (Completion (Some t :: rest))
                   /\ ~ In (normalized t) category_set)) ->
  exists evs,
    process_email sys email s =
      (Ok {| email_id := id email; success := false;
             classification := None; response_sent := VBool false |},
       evs, s1)
    /\ invocations evs = []
    /\ requests evs = [classify_request email].
Proof.
  intros Hcall Hbad.
  assert (Hnone : fst (read_category r1) = None).
  { destruct Hbad as [[e ->]|[t [rest [-> Hout]]]]; [reflexivity|].
    cbn [read_category fst].
    destruct (PyStr.contains category_set (normalized t)) eqn:Hin;
      [|reflexivity].
    exfalso. apply Hout. now apply In_category_set. }
  eexists. split; [exact (process_email_failed _ _ _ _ Hcall Hnone)|].
  destruct (read_category_quiet r1) as [Hinv Hreq].
  unfold invocations, requests in *. cbn [filter is_invoke is_request].
  now rewrite Hinv, Hreq.
Qed.

(** C2, as the program has it: every row process_email returns has success
    True exactly when a classification is present, holds a string in
    response_sent only when success is True, and holds the boolean False
    there when success is False; and process_email always returns a row. *)
Theorem result_rows_invariant email s :
  exists r evs s',
    process_email sys email s = (Ok r, evs, s') /\ result_invariant_False r.
Proof.
  destruct (classify_call email s) as [r1 s1] eqn:Hcall.
  destruct (fst (read_category r1)) as [x|] eqn:Hread.
  - destruct (read_category_label _ _ Hread) as [cat ->].
    rewrite (process_email_classified _ _ _ _ _ Hcall Hread).
    destruct (respond_call email (label cat) s1) as [r2 s2].
    do 3 eexists. split; [reflexivity|].
    unfold result_invariant_False. cbn [success classification response_sent].
    repeat split; try discriminate; auto.
  - rewrite (process_email_failed _ _ _ _ Hcall Hread).
    do 3 eexists. split; [reflexivity|].
    unfold result_invariant_False. cbn [success classification response_sent].
    repeat split; try discriminate; auto.
Qed.

(** C3: when the classification call returns a text that normalizes to a
    category and the response-generation call then raises, process_email
    returns success True with that category and response_sent None, and the
    category's mock action of the table is called exactly once, with the
    email's id and None as payload. *)
Theorem responder_failure_still_dispatches
    (cat : Category) email s t rest s1 e s2 :
  classify_call email s = (Returns (Completion (Some t :: rest)), s1) ->
  normalized t = label cat ->
  respond_call email (label cat) s1 = (Raises e, s2) ->
  exists evs,
    process_email sys email s =
      (Ok {| email_id := id email; success := true;
             classification := Some (label cat); response_sent := VNone |},
       evs, s2)
    /\ invocations evs = [Invoke (table_action cat) [VStr (id email); VNone]].
Proof.
  intros Hcall Hnorm Hresp.
  assert (Hread : fst (read_category (Returns (Completion (Some t :: rest))))
                  = Some (label cat)).
  { cbn [read_category fst]. rewrite Hnorm. now destruct cat. }
  rewrite (process_email_classified _ _ _ _ _ Hcall Hread), Hresp.
  eexists. split; [reflexivity|].
  cbn [read_category read_response fst snd app].
  unfold invocations. cbn [filter is_invoke error_line]. reflexivity.
Qed.

(** C4: when the classification call returns a text that, trimmed and
    lowercased, is one of the five categories, process_email returns a row
    with success True and that trimmed, lowercased text as classification. *)
Theorem valid_classification_succeeds email s t rest s1 :
  classify_call email s = (Returns (Completion (Some t :: rest)), s1) ->
  In (normalized t) category_set ->
  exists r evs s2,
    process_email sys email s = (Ok r, evs, s2)
    /\ success r = true
    /\ classification r = Some (PyStr.lower (PyStr.strip t)).
Proof.
  intros Hcall Hin.
  apply In_category_set in Hin.
  destruct (contains_category_set _ Hin) as [cat Hcat].
  assert (Hread : fst (read_category (Returns (Completion (Some t :: rest))))
                  = Some (label cat)).
  { cbn [read_category fst]. now rewrite Hin, Hcat. }
  rewrite (process_email_classified _ _ _ _ _ Hcall Hread).
  destruct (respond_call email (label cat) s1) as [r2 s2].
  do 3 eexists. split; [reflexivity|].
  cbn [success classification]. split; [reflexivity|].
  now rewrite <- Hcat.
Qed.

(** C5: for each category, the handler the orchestrator looks up for it
    returns, and among everything it does there is exactly one call of a
    mock service: the one the table gives for the category, with the email's
    id and the handler's return value; and an email that process_email
    classifies into the category gets exactly that one call. *)
Theorem dispatch_calls_one_action (cat : Category) email :
  (forall s, exists o evs s',
      dict_get (response_handlers sys) (label cat) (_handle_other (processor sys))
               email s = (Ok o, evs, s')
      /\ invocations evs
         = [Invoke (table_action cat) [VStr (id email); of_optional o]])
  /\ (forall s t rest s1,
        classify_call email s = (Returns (Completion (Some t :: rest)), s1) ->
        normalized t = label cat ->
        exists r evs s2,
          process_email sys email s = (Ok r, evs, s2)
          /\ classification r = Some (label cat)
          /\ invocations evs
             = [Invoke (table_action cat) [VStr (id email); response_sent r]]).
Proof.
  split.
  - intros s.
    change (dict_get (response_handlers sys) (label cat)
              (_handle_other (processor sys)))
      with (lookup_handler p (label cat)).
    rewrite handler_run.
    destruct (client p (model p) _ s) as [r2 s2].
    do 3 eexists. split; [reflexivity|].
    rewrite app_comm_cons, invocations_app.
    unfold invocations at 1. cbn [filter is_invoke].
    destruct (read_response_quiet r2) as [Hq _].
    unfold invocations in Hq. rewrite Hq. reflexivity.
  - intros s t rest s1 Hcall Hnorm.
    assert (Hread : fst (read_category (Returns (Completion (Some t :: rest))))
                    = Some (label cat)).
    { cbn [read_category fst]. rewrite Hnorm. now destruct cat. }
    rewrite (process_email_classified _ _ _ _ _ Hcall Hread).
    destruct (respond_call email (label cat) s1) as [r2 s2].
    do 3 eexists. split; [reflexivity|]. split; [reflexivity|].
    cbn [response_sent].
    rewrite app_comm_cons, invocations_app.
    destruct (read_category_quiet (Returns (Completion (Some t :: rest))))
      as [Hq1 _].
    unfold invocations at 1. cbn [filter is_invoke].
    unfold invocations in Hq1. rewrite Hq1. cbn [app].
    rewrite app_comm_cons, invocations_app.
    unfold invocations at 1. cbn [filter is_invoke].
    destruct (read_response_quiet r2) as [Hq2 _].
    unfold invocations in Hq2. rewrite Hq2. reflexivity.
Qed.

(** C6: a key that is none of complaint, inquiry, feedback and
    support_request, the key other and any unexpected one alike, gets from
    the handler lookup of process_email the handler of the other category. *)
Theorem unmapped_key_gets_other_handler (key : string) :
  key <> "complaint" -> key <> "inquiry" ->
  key <> "feedback" -> key <> "support_request" ->
  dict_get (response_handlers sys) key (_handle_other (processor sys))
  = _handle_other p
  /\ dict_get (response_handlers sys) key (_handle_other (processor sys))
     = dict_get (response_handlers sys) "other" (_handle_other (processor sys)).
Proof.
  intros H1 H2 H3 H4.
  apply String.eqb_neq in H1, H2, H3, H4.
  cbn [response_handlers EmailAutomationSystem_init dict_get processor].
  rewrite H1, H2, H3, H4.
  destruct (String.eqb key "other"); split; reflexivity.
Qed.

(** C10: process_email always returns a row; its response_sent is the
    boolean False exactly when its classification is absent; and when the
    classification is present and the response-generation call raised,
    response_sent is None.  So False and None in response_sent tell the two
    failures apart. *)
Theorem failure_modes_distinguishable email s :
  exists r evs s',
    process_email sys email s = (Ok r, evs, s')
    /\ (classification r = None <-> response_sent r = VBool false)
    /\ (forall cat e s2,
          classification r = Some cat ->
          respond_call email cat (snd (classify_call email s)) = (Raises e, s2) ->
          response_sent r = VNone).
Proof.
  destruct (classify_call email s) as [r1 s1] eqn:Hcall.
  destruct (fst (read_category r1)) as [x|] eqn:Hread.
  - destruct (read_category_label _ _ Hread) as [cat ->].
    rewrite (process_email_classified _ _ _ _ _ Hcall Hread).
    destruct (respond_call email (label cat) s1) as [r2 s2] eqn:Hresp.
    do 3 eexists. split; [reflexivity|].
    cbn [classification response_sent snd]. split.
    + split; [discriminate|].
      destruct (fst (read_response r2)); discriminate.
    + intros cat' e s2' [= <-] Hraise.
      rewrite Hresp in Hraise. injection Hraise as -> _. reflexivity.
  - rewrite (process_email_failed _ _ _ _ Hcall Hread).
    do 3 eexists. split; [reflexivity|].
    cbn [classification response_sent]. split.
    + split; reflexivity.
    + discriminate.
Qed.

End Orchestrator.

(** ** Provider errors stop at the wrappers *)

Section ProviderErrors.

Context {PS : Type}.
Implicit Types (self : @EmailProcessor PS) (email : Email) (s : PS).

(** C7: classify_email and generate_response always return to their caller
    and never raise; when the provider call raises an error, each of them
    logs one line with the error's text and returns None. *)
Theorem provider_errors_are_caught self email (cat : string) s :
  (exists o evs s', classify_email self email s = (Ok o, evs, s'))
  /\ (exists o evs s', generate_response self email cat s = (Ok o, evs, s'))
  /\ (forall e s',
        client self (model self) (user_message (classify_prompt self email)) s
        = (Raises e, s') ->
        classify_email self email s =
        (Ok None,
         [ ChatCompletion (model self)
             (user_message (classify_prompt self email));
           LogError ("Error with the LLM provider: " ++ exn_str e) ],
         s'))
  /\ (forall e s',
        client self (model self) (user_message (response_prompt email cat)) s
        = (Raises e, s') ->
        generate_response self email cat s =
        (Ok None,
         [ ChatCompletion (model self)
             (user_message (response_prompt email cat));
           LogError ("Error with the LLM provider: " ++ exn_str e) ],
         s')).
Proof.
  repeat split.
  - unfold classify_email, try_except, bind, chat_completions_create.
    destruct (client self _ _ s) as [[[[|[t|] rest]]|e] s'];
      cbn -[PyStr.contains PyStr.lower PyStr.strip String.append]; eauto.
  - rewrite generate_response_run.
    destruct (client self _ _ s) as [r s']. eauto.
  - intros e s' Hcall.
    unfold classify_email, try_except, bind, chat_completions_create.
    rewrite Hcall. reflexivity.
  - intros e s' Hcall.
    rewrite generate_response_run, Hcall. reflexivity.
Qed.

End ProviderErrors.

(** ** The urgent-ticket service is never called *)

Section UrgentTicket.

Context {PS : Type}.
Implicit Types (p : @EmailProcessor PS) (email : Email).

Lemma urgent_free_ret {A} (a : A) : urgent_free (@ret PS A a).
Proof. intros s. reflexivity. Qed.

Lemma urgent_free_raise {A} (e : exn) : urgent_free (@raise PS A e).
Proof. intros s. reflexivity. Qed.

Lemma urgent_free_emit (ev : event) :
  calls_urgent_ticket ev = false -> urgent_free (@emit PS ev).
Proof. intros Hev s. cbn. now rewrite Hev. Qed.

Lemma urgent_free_bind {A B} (m : @M PS A) (k : A -> M B) :
  urgent_free m -> (forall a, urgent_free (k a)) -> urgent_free (bind m k).
Proof.
  intros Hm Hk s. unfold bind.
  specialize (Hm s). destruct (m s) as [[[a|e] evs] s']; cbn [fst snd] in *.
  - specialize (Hk a s'). destruct (k a s') as [[r evs'] s''].
    cbn [fst snd] in *. now rewrite existsb_app, Hm, Hk.
  - exact Hm.
Qed.

Lemma urgent_free_try_except {A} (m : @M PS A) (h : exn -> M A) :
  urgent_free m -> (forall e, urgent_free (h e)) -> urgent_free (try_except m h).
Proof.
  intros Hm Hh s. unfold try_except.
  specialize (Hm s). destruct (m s) as [[[a|e] evs] s']; cbn [fst snd] in *.
  - exact Hm.
  - specialize (Hh e s'). destruct (h e s') as [[r evs'] s''].
    cbn [fst snd] in *. now rewrite existsb_app, Hm, Hh.
Qed.

Lemma urgent_free_chat (c : @Client PS) (m : string) (msgs : list message) :
  urgent_free (chat_completions_create c m msgs).
Proof.
  intros s. unfold chat_completions_create.
  destruct (c m msgs s) as [r s']. reflexivity.
Qed.

(** Takes a computation apart along its binds, handlers and branches. *)
Ltac urgent_free_steps :=
  repeat first
    [ apply urgent_free_ret
    | apply urgent_free_raise
    | apply urgent_free_chat
    | apply urgent_free_emit; reflexivity
    | apply urgent_free_bind; [|intros ?]
    | apply urgent_free_try_except; [|intros ?]
    | match goal with
      | |- urgent_free (first_item ?xs) => destruct xs
      | |- urgent_free (str_receiver ?o) => destruct o
      end ].

Lemma urgent_free_classify_email p email : urgent_free (classify_email p email).
Proof. unfold classify_email, logger_error. urgent_free_steps. Qed.

Lemma urgent_free_generate_response p email (cat : string) :
  urgent_free (generate_response p email cat).
Proof. unfold generate_response, logger_error. urgent_free_steps. Qed.

Lemma urgent_free_lookup p (key : string) email :
  urgent_free (lookup_handler p key email).
Proof.
  unfold lookup_handler.
  cbn [response_handlers EmailAutomationSystem_init dict_get].
  repeat match goal with
         | |- context [String.eqb key ?k] => destruct (String.eqb key k)
         end;
    unfold _handle_complaint, _handle_inquiry, _handle_feedback,
           _handle_support_request, _handle_other,
           send_complaint_response, send_standard_response,
           create_support_ticket, log_customer_feedback, logger_info;
    urgent_free_steps; apply urgent_free_generate_response.
Qed.

Lemma urgent_free_process_email p email :
  urgent_free (process_email (EmailAutomationSystem_init p) email).
Proof.
  unfold process_email.
  apply urgent_free_bind; [apply urgent_free_classify_email|].
  intros o. destruct (negb (truthy o)).
  - apply urgent_free_ret.
  - apply urgent_free_bind; [|intros ?; apply urgent_free_ret].
    apply (urgent_free_lookup p).
Qed.

Lemma urgent_free_process_each p emails results :
  urgent_free (process_each (EmailAutomationSystem_init p) emails results).
Proof.
  revert results. induction emails as [|email rest IH]; intros results.
  - apply urgent_free_ret.
  - cbn [process_each]. unfold logger_info.
    apply urgent_free_bind; [apply urgent_free_emit; reflexivity|].
    intros _. apply urgent_free_bind; [apply urgent_free_process_email|].
    intros result. apply IH.
Qed.

(** C9: the urgent-ticket service is called on no path: not by
    process_email, not by the handler found for any key, not by the run over
    any list of emails, and so not by the demonstration. *)
Theorem create_urgent_ticket_never_called
    (c : @Client PS) (order : list string) :
  let p := EmailProcessor_init c order in
  let sys := EmailAutomationSystem_init p in
  (forall email, urgent_free (process_email sys email))
  /\ (forall key email,
        urgent_free
          (dict_get (response_handlers sys) key (_handle_other (processor sys))
                    email))
  /\ (forall emails, urgent_free (run_on c order emails))
  /\ urgent_free (run_demonstration c order).
Proof.
  intros p sys.
  assert (Hrun : forall emails, urgent_free (run_on c order emails)).
  { intros emails. unfold run_on, print.
    apply urgent_free_bind; [apply urgent_free_process_each|].
    intros results. urgent_free_steps. }
  repeat split.
  - intros email. apply urgent_free_process_email.
  - intros key email. apply (urgent_free_lookup p).
  - exact Hrun.
  - apply Hrun.
Qed.

End UrgentTicket.

(** A call of the service is seen by [urgent_free]. *)
Example urgent_free_sees_a_call :
  ~ urgent_free (@create_urgent_ticket unit "001" "complaint" None).
Proof. intros H. specialize (H tt). discriminate H. Qed.

(** ** Re-running over the same emails *)

Section Rerun.

Context {PS : Type} (c : @Client PS) (R : PS -> PS -> Prop).
Hypothesis c_alike : answers_alike c R.

Implicit Types (email : Email).

Lemma respects_ret {A} (a : A) : respects R (ret a).
Proof. intros s1 s2 HR. split; [reflexivity | exact HR]. Qed.

Lemma respects_raise {A} (e : exn) : respects R (@raise PS A e).
Proof. intros s1 s2 HR. split; [reflexivity | exact HR]. Qed.

Lemma respects_emit (ev : event) : respects R (emit ev).
Proof. intros s1 s2 HR. split; [reflexivity | exact HR]. Qed.

Lemma respects_bind {A B} (m : M A) (k : A -> M B) :
  respects R m -> (forall a, respects R (k a)) -> respects R (bind m k).
Proof.
  intros Hm Hk s1 s2 HR. unfold bind.
  destruct (Hm s1 s2 HR) as [Heq HR'].
  destruct (m s1) as [[o1 evs1] s1'], (m s2) as [[o2 evs2] s2'].
  cbn [fst snd] in *. injection Heq as -> ->.
  destruct o2 as [a|e]; [|split; [reflexivity | exact HR']].
  destruct (Hk a s1' s2' HR') as [Heq' HR''].
  destruct (k a s1') as [[r1 evs1'] s1''], (k a s2') as [[r2 evs2'] s2''].
  cbn [fst snd] in *. injection Heq' as -> ->.
  split; [reflexivity | exact HR''].
Qed.

Lemma respects_try_except {A} (m : M A) (h : exn -> M A) :
  respects R m -> (forall e, respects R (h e)) -> respects R (try_except m h).
Proof.
  intros Hm Hh s1 s2 HR. unfold try_except.
  destruct (Hm s1 s2 HR) as [Heq HR'].
  destruct (m s1) as [[o1 evs1] s1'], (m s2) as [[o2 evs2] s2'].
  cbn [fst snd] in *. injection Heq as -> ->.
  destruct o2 as [a|e]; [split; [reflexivity | exact HR']|].
  destruct (Hh e s1' s2' HR') as [Heq' HR''].
  destruct (h e s1') as [[r1 evs1'] s1''], (h e s2') as [[r2 evs2'] s2''].
  cbn [fst snd] in *. injection Heq' as -> ->.
  split; [reflexivity | exact HR''].
Qed.

Lemma respects_chat (m : string) (msgs : list message) :
  respects R (chat_completions_create c m msgs).
Proof.
  intros s1 s2 HR. unfold chat_completions_create.
  destruct (c_alike m msgs s1 s2 HR) as [Heq HR'].
  destruct (c m msgs s1) as [r1 s1'], (c m msgs s2) as [r2 s2'].
  cbn [fst snd] in *. subst r2. split; [reflexivity | exact HR'].
Qed.

Ltac respects_steps :=
  repeat first
    [ apply respects_ret
    | apply respects_raise
    | apply respects_chat
    | apply respects_emit
    | apply respects_bind; [|intros ?]
    | apply respects_try_except; [|intros ?]
    | match goal with
      | |- respects R (first_item ?xs) => destruct xs
      | |- respects R (str_receiver ?o) => destruct o
      end ].

Local Abbreviation p order := (EmailProcessor_init c order).

Lemma respects_classify_email order email :
  respects R (classify_email (p order) email).
Proof. unfold classify_email, logger_error. cbn [client]. respects_steps. Qed.

Lemma respects_generate_response order email (cat : string) :
  respects R (generate_response (p order) email cat).
Proof. unfold generate_response, logger_error. cbn [client]. respects_steps. Qed.

Lemma respects_lookup order (key : string) email :
  respects R (lookup_handler (p order) key email).
Proof.
  unfold lookup_handler.
  cbn [response_handlers EmailAutomationSystem_init dict_get].
  repeat match goal with
         | |- context [String.eqb key ?k] => destruct (String.eqb key k)
         end;
    unfold _handle_complaint, _handle_inquiry, _handle_feedback,
           _handle_support_request, _handle_other,
           send_complaint_response, send_standard_response,
           create_support_ticket, log_customer_feedback, logger_info;
    respects_steps; apply respects_generate_response.
Qed.

Lemma respects_process_email order email :
  respects R (process_email (EmailAutomationSystem_init (p order)) email).
Proof.
  unfold process_email.
  apply respects_bind; [apply respects_classify_email|].
  intros o. destruct (negb (truthy o)).
  - apply respects_ret.
  - apply respects_bind; [|intros ?; apply respects_ret].
    apply (respects_lookup order).
Qed.

Lemma respects_process_each order emails results :
  respects R
    (process_each (EmailAutomationSystem_init (p order)) emails results).
Proof.
  revert results. induction emails as [|email rest IH]; intros results.
  - apply respects_ret.
  - cbn [process_each]. unfold logger_info.
    apply respects_bind; [apply respects_emit|].
    intros _. apply respects_bind; [apply respects_process_email|].
    intros result. apply IH.
Qed.

Lemma respects_run_on order emails : respects R (run_on c order emails).
Proof.
  unfold run_on, print.
  apply respects_bind; [apply respects_process_each|].
  intros results. respects_steps.
Qed.

(** C8: with a stub whose answers depend only on what [R] keeps (any
    stateless stub with [R] relating all states, any stub at all with [R]
    equality), two runs of the orchestrator over the same list of emails,
    from provider states related by [R], return the same sequence of rows in
    the same order, and emit the same events. *)
Theorem rerun_gives_identical_results order emails s1 s2 :
  R s1 s2 ->
  fst (run_on c order emails s1) = fst (run_on c order emails s2).
Proof. intros HR. apply (respects_run_on order emails s1 s2 HR). Qed.

End Rerun.

(** ** The properties at concrete emails and stubs *)

(** Scenario 1: the classifier stub answers complaint and the responder stub
    answers with a reply; one complaint response is sent for email 001. *)
Example scenario_complaint :
  let run :=
    process_email
      (Stub.system (Stub.fixed (Stub.text "complaint") (Stub.text "We're sorry...")))
      Stub.email1 tt in
  fst (fst run)
  = Ok {| email_id := "001"; success := true;
          classification := Some "complaint";
          response_sent := VStr "We're sorry..." |}
  /\ invocations (snd (fst run))
     = [Invoke SendComplaintResponse [VStr "001"; VStr "We're sorry..."]].
Proof. split; reflexivity. Qed.

(** C1 as stated fails: the classifier stub answers spam for email 002;
    spam is not a category, yet the row returned is not the one with
    response_sent None. *)
Lemma classification_failure_not_absent :
  ~ In (normalized "spam") category_set
  /\ fst (fst (process_email
                (Stub.system (Stub.fixed (Stub.text "spam") (Stub.text "Hello")))
                Stub.email2 tt))
     <> Ok {| email_id := "002"; success := false;
              classification := None; response_sent := VNone |}.
Proof.
  split.
  - cbn. intuition discriminate.
  - vm_compute. discriminate.
Qed.

Lemma classification_failure_result_witness :
  exists evs,
    process_email
      (Stub.system (Stub.fixed (Stub.text "spam") (Stub.text "Hello")))
      Stub.email2 tt
    = (Ok {| email_id := "002"; success := false;
             classification := None; response_sent := VBool false |},
       evs, tt)
    /\ invocations evs = []
    /\ requests evs
       = [ChatCompletion "gpt-4o"
            (user_message
               (classify_prompt
                  (EmailProcessor_init
                     (Stub.fixed (Stub.text "spam") (Stub.text "Hello"))
                     Stub.order)
                  Stub.email2))].
Proof.
  apply (classification_failure_result
           (Stub.fixed (Stub.text "spam") (Stub.text "Hello")) Stub.order
           Stub.email2 tt (Stub.text "spam") tt).
  - reflexivity.
  - right. exists "spam", []. split; [reflexivity|].
    cbn. intuition discriminate.
Defined.

(** C2 as stated fails: the row for email 002 with the classifier stub
    answering spam has success False and response_sent False, which is not
    None. *)
Lemma failure_row_breaks_invariant :
  exists r,
    fst (fst (process_email
                (Stub.system (Stub.fixed (Stub.text "spam") (Stub.text "Hello")))
                Stub.email2 tt)) = Ok r
    /\ ~ result_invariant r.
Proof.
  eexists. split; [vm_compute; reflexivity|].
  unfold result_invariant. cbn [success response_sent].
  intros [_ H]. assert (Hf : false = true) by (apply H; discriminate).
  discriminate Hf.
Qed.

(** Scenario 3: the classifier stub answers feedback for email 003 and the
    responder stub raises. *)
Lemma responder_failure_still_dispatches_witness :
  exists evs,
    process_email (Stub.system (Stub.fixed (Stub.text "feedback") Stub.failing))
                  Stub.email3 tt
    = (Ok {| email_id := "003"; success := true;
             classification := Some "feedback"; response_sent := VNone |},
       evs, tt)
    /\ invocations evs = [Invoke LogCustomerFeedback [VStr "003"; VNone]].
Proof.
  apply (responder_failure_still_dispatches
           (Stub.fixed (Stub.text "feedback") Stub.failing) Stub.order
           Feedback Stub.email3 tt "feedback" [] tt
           (Exn "APIConnectionError" "Connection error.") tt);
    reflexivity.
Defined.

Lemma valid_classification_succeeds_witness :
  exists r evs s2,
    process_email
      (Stub.system (Stub.fixed (Stub.text "  Complaint ") (Stub.text "Hello")))
      Stub.email1 tt = (Ok r, evs, s2)
    /\ success r = true
    /\ classification r = Some (PyStr.lower (PyStr.strip "  Complaint ")).
Proof.
  apply (valid_classification_succeeds
           (Stub.fixed (Stub.text "  Complaint ") (Stub.text "Hello"))
           Stub.order Stub.email1 tt "  Complaint " [] tt).
  - reflexivity.
  - left. reflexivity.
Defined.

Lemma dispatch_calls_one_action_witness :
  exists r evs s2,
    process_email
      (Stub.system (Stub.fixed (Stub.text "support_request") (Stub.text "Hello")))
      Stub.email1 tt = (Ok r, evs, s2)
    /\ classification r = Some "support_request"
    /\ invocations evs
       = [Invoke CreateSupportTicket [VStr "001"; response_sent r]].
Proof.
  apply (proj2 (dispatch_calls_one_action
                  (Stub.fixed (Stub.text "support_request") (Stub.text "Hello"))
                  Stub.order SupportRequest Stub.email1)
               tt "support_request" [] tt);
    reflexivity.
Defined.

Lemma unmapped_key_gets_other_handler_witness :
  dict_get (response_handlers (Stub.system Stub.scripted)) "spam"
           (_handle_other (processor (Stub.system Stub.scripted)))
  = _handle_other (EmailProcessor_init Stub.scripted Stub.order)
  /\ dict_get (response_handlers (Stub.system Stub.scripted)) "spam"
              (_handle_other (processor (Stub.system Stub.scripted)))
     = dict_get (response_handlers (Stub.system Stub.scripted)) "other"
                (_handle_other (processor (Stub.system Stub.scripted))).
Proof.
  apply (unmapped_key_gets_other_handler Stub.scripted Stub.order "spam");
    discriminate.
Defined.

Lemma provider_errors_are_caught_witness :
  classify_email
    (EmailProcessor_init (Stub.fixed Stub.failing Stub.failing) Stub.order)
    Stub.email1 tt
  = (Ok None,
     [ ChatCompletion "gpt-4o"
         (user_message
            (classify_prompt
               (EmailProcessor_init (Stub.fixed Stub.failing Stub.failing)
                                    Stub.order)
               Stub.email1));
       LogError "Error with the LLM provider: Connection error." ],
     tt).
Proof.
  apply (proj1 (proj2 (proj2
           (provider_errors_are_caught
              (EmailProcessor_init (Stub.fixed Stub.failing Stub.failing)
                                   Stub.order)
              Stub.email1 "complaint" tt)))
           (Exn "APIConnectionError" "Connection error.") tt).
  reflexivity.
Defined.

(** The demonstration run twice in a row on a stub that counts its calls:
    the second run starts where the first left the stub. *)
Lemma rerun_gives_identical_results_witness :
  let c := Stub.counting (Stub.text "inquiry") (Stub.text "Hello") in
  fst (run_on c Stub.order sample_emails 0)
  = fst (run_on c Stub.order sample_emails
           (snd (run_on c Stub.order sample_emails 0))).
Proof.
  apply (rerun_gives_identical_results
           (Stub.counting (Stub.text "inquiry") (Stub.text "Hello"))
           (fun _ _ => True)).
  - intros m msgs s1 s2 _. split; [reflexivity | exact I].
  - exact I.
Defined.

Lemma failure_modes_distinguishable_witness :
  exists r evs s',
    process_email (Stub.system (Stub.fixed (Stub.text "feedback") Stub.failing))
                  Stub.email3 tt = (Ok r, evs, s')
    /\ classification r = Some "feedback"
    /\ response_sent r = VNone.
Proof.
  destruct (failure_modes_distinguishable
              (Stub.fixed (Stub.text "feedback") Stub.failing) Stub.order
              Stub.email3 tt) as [r [evs [s' [Hrun [_ Hnone]]]]].
  exists r, evs, s'. split; [exact Hrun|].
  assert (Hcls : classification r = Some "feedback").
  { vm_compute in Hrun. injection Hrun as <- _ _. reflexivity. }
  split; [exact Hcls|].
  apply (Hnone "feedback" (Exn "APIConnectionError" "Connection error.") tt Hcls).
  reflexivity.
Defined.

(** ** Further properties of the two wrappers *)

Section WrapperDetails.

Context {PS : Type}.
Implicit Types (self : @EmailProcessor PS) (email : Email) (s : PS).

(** X1: whatever the provider answers, classify_email returns, and what it
    returns is None or one of the five category labels. *)
Theorem classify_email_result_in_set (c : @Client PS) order email s :
  exists o evs s',
    classify_email (EmailProcessor_init c order) email s = (Ok o, evs, s')
    /\ (forall x, o = Some x -> In x category_set).
Proof.
  rewrite classify_email_run by reflexivity.
  destruct (client _ _ _ s) as [r s'].
  do 3 eexists. split; [reflexivity|].
  intros x Hx. destruct (read_category_label _ _ Hx) as [cat ->].
  destruct cat; cbn; tauto.
Qed.

(** X2: a completion with no choice, or whose first choice has content
    None, is handled like a provider error: classify_email logs the
    IndexError or AttributeError text and returns None. *)
Theorem classify_email_malformed_completion self email s s' :
  (client self (model self) (user_message (classify_prompt self email)) s
   = (Returns (Completion []), s') ->
   classify_email self email s =
   (Ok None,
    [ ChatCompletion (model self) (user_message (classify_prompt self email));
      LogError "Error with the LLM provider: list index out of range" ],
    s'))
  /\ (forall rest,
        client self (model self) (user_message (classify_prompt self email)) s
        = (Returns (Completion (None :: rest)), s') ->
        classify_email self email s =
        (Ok None,
         [ ChatCompletion (model self)
             (user_message (classify_prompt self email));
           LogError
             "Error with the LLM provider: 'NoneType' object has no attribute 'strip'" ],
         s')).
Proof.
  split; [intros Hcall | intros rest Hcall];
    unfold classify_email, try_except, bind, chat_completions_create;
    rewrite Hcall; reflexivity.
Qed.

(** X3: a text that is not a category after trimming and lowercasing makes
    classify_email return None without logging anything: the
    classification request is its only event. *)
Theorem classify_email_unrecognized_text
    (c : @Client PS) order email s t rest s' :
  c "gpt-4o" (user_message (classify_prompt (EmailProcessor_init c order) email)) s
  = (Returns (Completion (Some t :: rest)), s') ->
  ~ In (normalized t) category_set ->
  classify_email (EmailProcessor_init c order) email s =
  (Ok None,
   [ ChatCompletion "gpt-4o"
       (user_message (classify_prompt (EmailProcessor_init c order) email)) ],
   s').
Proof.
  intros Hcall Hout.
  rewrite classify_email_run by reflexivity.
  change (client (EmailProcessor_init c order)) with c.
  change (model (EmailProcessor_init c order)) with "gpt-4o".
  rewrite Hcall. cbn [read_category fst snd].
  destruct (PyStr.contains category_set (normalized t)) eqn:Hin;
    [|reflexivity].
  exfalso. apply Hout. now apply In_category_set.
Qed.

(** X4: generate_response hands back the content of the first choice as it
    is, a None content included, and logs nothing. *)
Theorem generate_response_verbatim self email (cat : string) s o rest s' :
  client self (model self) (user_message (response_prompt email cat)) s
  = (Returns (Completion (o :: rest)), s') ->
  generate_response self email cat s =
  (Ok o,
   [ChatCompletion (model self) (user_message (response_prompt email cat))],
   s').
Proof.
  intros Hcall. rewrite generate_response_run, Hcall. reflexivity.
Qed.

(** X5: no retry.  Each wrapper sends exactly one request to the provider,
    the single user message with its prompt, whether the call succeeds or
    not, and calls no mock service. *)
Theorem wrappers_send_one_request self email (cat : string) s :
  requests (snd (fst (classify_email self email s)))
  = [ChatCompletion (model self) (user_message (classify_prompt self email))]
  /\ invocations (snd (fst (classify_email self email s))) = []
  /\ requests (snd (fst (generate_response self email cat s)))
     = [ChatCompletion (model self) (user_message (response_prompt email cat))]
  /\ invocations (snd (fst (generate_response self email cat s))) = [].
Proof.
  assert (Hc : requests (snd (fst (classify_email self email s)))
               = [ChatCompletion (model self)
                    (user_message (classify_prompt self email))]
               /\ invocations (snd (fst (classify_email self email s))) = []).
  { unfold classify_email, try_except, bind, chat_completions_create.
    destruct (client self _ _ s) as [[[[|[t|] rest]]|e] s'];
      split; reflexivity. }
  destruct Hc as [Hc1 Hc2].
  repeat split; [exact Hc1 | exact Hc2 | |];
    rewrite generate_response_run;
    destruct (client self _ _ s) as [[[[|o rest]]|e] s']; reflexivity.
Qed.

End WrapperDetails.

(** ** Further properties of the orchestrator and of a run *)

Section RunDetails.

Context {PS : Type} (c : @Client PS) (order : list string).

Local Abbreviation p := (EmailProcessor_init c order).
Local Abbreviation sys := (EmailAutomationSystem_init p).
Local Abbreviation classify_call email :=
  (c "gpt-4o" (user_message (classify_prompt p email))).
Local Abbreviation classify_request email :=
  (ChatCompletion "gpt-4o" (user_message (classify_prompt p email))).
Local Abbreviation respond_call email cat :=
  (c "gpt-4o" (user_message (response_prompt email cat))).
Local Abbreviation respond_request email cat :=
  (ChatCompletion "gpt-4o" (user_message (response_prompt email cat))).

(** What one email costs and yields: the row carries its id, a success
    comes with two requests and one service call, a failure with one request
    and no call. *)
Lemma process_email_summary email s :
  exists r evs s',
    process_email sys email s = (Ok r, evs, s')
    /\ email_id r = id email
    /\ requests evs
       = classify_request email
           :: match classification r with
              | None => []
              | Some cat => [respond_request email cat]
              end
    /\ length (invocations evs) = (if success r then 1 else 0)
    /\ (success r = false -> r = failure_row email)
    /\ length (requests evs) = (if success r then 2 else 1).
Proof.
  destruct (classify_call email s) as [r1 s1] eqn:Hcall.
  destruct (read_category_quiet r1) as [Hi1 Hr1].
  unfold invocations, requests in *.
  destruct (fst (read_category r1)) as [x|] eqn:Hread.
  - destruct (read_category_label _ _ Hread) as [cat ->].
    rewrite (process_email_classified _ _ _ _ _ _ _ Hcall Hread).
    destruct (respond_call email (label cat) s1) as [r2 s2].
    destruct (read_response_quiet r2) as [Hi2 Hr2].
    unfold invocations, requests in *.
    do 3 eexists. split; [reflexivity|].
    cbn [email_id classification success].
    repeat split; try discriminate.
    + cbn [filter is_request]. rewrite filter_app, Hr1. cbn [app filter is_request].
      rewrite filter_app, Hr2. reflexivity.
    + cbn [filter is_invoke]. rewrite filter_app, Hi1. cbn [app filter is_invoke].
      rewrite filter_app, Hi2. reflexivity.
    + cbn [filter is_request]. rewrite filter_app, Hr1. cbn [app filter is_request].
      rewrite filter_app, Hr2. reflexivity.
  - rewrite (process_email_failed _ _ _ _ _ _ Hcall Hread).
    do 3 eexists. split; [reflexivity|].
    cbn [email_id classification success filter is_request is_invoke].
    rewrite Hr1, Hi1. repeat split.
Qed.

(** X6: process_email always returns a row with the email's id, and the
    requests it sends are the classification request followed, exactly when
    a classification is present, by the response request for that
    category. *)
Theorem process_email_requests email s :
  exists r evs s',
    process_email sys email s = (Ok r, evs, s')
    /\ email_id r = id email
    /\ requests evs
       = classify_request email
           :: match classification r with
              | None => []
              | Some cat => [respond_request email cat]
              end.
Proof.
  destruct (process_email_summary email s)
    as (r & evs & s' & Hrun & Hid & Hreq & _).
  exists r, evs, s'. auto.
Qed.

(** X7: when the classification call returns a text that normalizes to a
    category and the response call returns a text, process_email returns
    the row with that category and the response text unchanged, and does
    four things in order: the classification request, the response request,
    the call of the category's mock service with the text, and that
    service's log line. *)
Theorem process_email_happy_path
    (cat : Category) email s t rest s1 (text : string) rest' s2 :
  classify_call email s = (Returns (Completion (Some t :: rest)), s1) ->
  normalized t = label cat ->
  respond_call email (label cat) s1
  = (Returns (Completion (Some text :: rest')), s2) ->
  process_email sys email s =
  (Ok {| email_id := id email; success := true;
         classification := Some (label cat); response_sent := VStr text |},
   [ classify_request email;
     respond_request email (label cat);
     Invoke (table_action cat) [VStr (id email); VStr text];
     LogInfo (service_line (table_action cat) (id email)) ],
   s2).
Proof.
  intros Hcall Hnorm Hresp.
  assert (Hread : fst (read_category (Returns (Completion (Some t :: rest))))
                  = Some (label cat)).
  { cbn [read_category fst]. rewrite Hnorm. now destruct cat. }
  rewrite (process_email_classified _ _ _ _ _ _ _ Hcall Hread), Hresp.
  reflexivity.
Qed.

Lemma lookup_reads_three_fields (key : string) (e1 e2 : Email) s :
  id e1 = id e2 -> subject e1 = subject e2 -> body e1 = body e2 ->
  lookup_handler p key e1 s = lookup_handler p key e2 s.
Proof.
  destruct e1 as [i1 f1 sub1 b1 t1], e2 as [i2 f2 sub2 b2 t2].
  cbn [id subject body]. intros -> -> ->.
  unfold lookup_handler.
  cbn [response_handlers EmailAutomationSystem_init dict_get].
  repeat match goal with
         | |- context [String.eqb key ?k] => destruct (String.eqb key k)
         end; reflexivity.
Qed.

(** X12: process_email reads only the id, subject and body of an email:
    two emails that agree on these three get the same row and cause the
    same events from any provider state, whatever their sender and
    timestamp. *)
Theorem sender_and_timestamp_unused (e1 e2 : Email) s :
  id e1 = id e2 -> subject e1 = subject e2 -> body e1 = body e2 ->
  process_email sys e1 s = process_email sys e2 s.
Proof.
  intros Hid Hsub Hbody.
  unfold process_email, bind.
  assert (Hc : classify_email (processor sys) e1 s
               = classify_email (processor sys) e2 s).
  { unfold classify_email, classify_prompt. now rewrite Hsub, Hbody. }
  rewrite Hc.
  destruct (classify_email (processor sys) e2 s) as [[[o|e] evs] s1];
    [|reflexivity].
  destruct (negb (truthy o)); [now rewrite Hid|].
  change (dict_get (response_handlers sys)
            match o with Some c0 => c0 | None => EmptyString end
            (_handle_other (processor sys)))
    with (lookup_handler p match o with Some c0 => c0 | None => EmptyString end).
  rewrite (lookup_reads_three_fields _ e1 e2 s1 Hid Hsub Hbody).
  now rewrite Hid.
Qed.











End RunDetails.

(** ** What a run prints *)

Section Printing.

Context {PS : Type}.
Implicit Types (p : @EmailProcessor PS) (email : Email).











End Printing.

(** ** The further properties at concrete emails and stubs *)

Lemma classify_email_malformed_completion_witness :
  classify_email
    (EmailProcessor_init
       (Stub.fixed (Returns (Completion [None])) (Stub.text "Hello"))
       Stub.order)
    Stub.email1 tt
  = (Ok None,
     [ ChatCompletion "gpt-4o"
         (user_message
            (classify_prompt
               (EmailProcessor_init
                  (Stub.fixed (Returns (Completion [None])) (Stub.text "Hello"))
                  Stub.order)
               Stub.email1));
       LogError
         "Error with the LLM provider: 'NoneType' object has no attribute 'strip'" ],
     tt).
Proof.
  apply (proj2 (classify_email_malformed_completion
                  (EmailProcessor_init
                     (Stub.fixed (Returns (Completion [None])) (Stub.text "Hello"))
                     Stub.order)
                  Stub.email1 tt tt) []).
  reflexivity.
Defined.

Lemma classify_email_unrecognized_text_witness :
  classify_email
    (EmailProcessor_init (Stub.fixed (Stub.text "Spam!") (Stub.text "Hello"))
                         Stub.order)
    Stub.email2 tt
  = (Ok None,
     [ ChatCompletion "gpt-4o"
         (user_message
            (classify_prompt
               (EmailProcessor_init
                  (Stub.fixed (Stub.text "Spam!") (Stub.text "Hello"))
                  Stub.order)
               Stub.email2)) ],
     tt).
Proof.
  apply (classify_email_unrecognized_text
           (Stub.fixed (Stub.text "Spam!") (Stub.text "Hello")) Stub.order
           Stub.email2 tt "Spam!" [] tt).
  - reflexivity.
  - cbn. intuition discriminate.
Defined.

(** A first choice whose content is None comes back as None, silently. *)
Lemma generate_response_verbatim_witness :
  generate_response
    (EmailProcessor_init
       (Stub.fixed (Stub.text "inquiry") (Returns (Completion [None])))
       Stub.order)
    Stub.email2 "inquiry" tt
  = (Ok None,
     [ChatCompletion "gpt-4o" (user_message (response_prompt Stub.email2 "inquiry"))],
     tt).
Proof.
  apply (generate_response_verbatim
           (EmailProcessor_init
              (Stub.fixed (Stub.text "inquiry") (Returns (Completion [None])))
              Stub.order)
           Stub.email2 "inquiry" tt None [] tt).
  reflexivity.
Defined.

Lemma process_email_happy_path_witness :
  process_email
    (Stub.system (Stub.fixed (Stub.text "Complaint") (Stub.text " We're sorry... ")))
    Stub.email1 tt
  = (Ok {| email_id := "001"; success := true;
           classification := Some "complaint";
           response_sent := VStr " We're sorry... " |},
     [ ChatCompletion "gpt-4o"
         (user_message
            (classify_prompt
               (EmailProcessor_init
                  (Stub.fixed (Stub.text "Complaint") (Stub.text " We're sorry... "))
                  Stub.order)
               Stub.email1));
       ChatCompletion "gpt-4o"
         (user_message (response_prompt Stub.email1 "complaint"));
       Invoke SendComplaintResponse [VStr "001"; VStr " We're sorry... "];
       LogInfo "Sending complaint response for email 001" ],
     tt).
Proof.
  apply (process_email_happy_path
           (Stub.fixed (Stub.text "Complaint") (Stub.text " We're sorry... "))
           Stub.order Complaint Stub.email1 tt "Complaint" [] tt
           " We're sorry... " [] tt);
    reflexivity.
Defined.



Lemma sender_and_timestamp_unused_witness :
  process_email
    (Stub.system (Stub.fixed (Stub.text "complaint") (Stub.text "Hello")))
    Stub.email1 tt
  = process_email
      (Stub.system (Stub.fixed (Stub.text "complaint") (Stub.text "Hello")))
      {| id := id Stub.email1; from := "someone.else@example.com";
         subject := subject Stub.email1; body := body Stub.email1;
         timestamp := "2025-01-01T00:00:00Z" |}
      tt.
Proof.
  apply (sender_and_timestamp_unused
           (Stub.fixed (Stub.text "complaint") (Stub.text "Hello")) Stub.order
           Stub.email1
           {| id := id Stub.email1; from := "someone.else@example.com";
              subject := subject Stub.email1; body := body Stub.email1;
              timestamp := "2025-01-01T00:00:00Z" |}
           tt);
    reflexivity.
Defined.
